(** * server3.py: the stateless book data analyst server

    A shallow embedding of
    [adk_samples/mcp_streamable_http/streamable_http_server/stateless/server3.py]:
    the module-level list [BOOKS_DATABASE], the pydantic models of the tool
    inputs and outputs, and the four tool functions registered in [main].

    Python [float] is IEEE 754 binary64, which is what Rocq's primitive
    [float] is, so ratings are compared, added and divided with the kernel's
    own binary64 operations.  Python [int] is unbounded and is [Z]; [str] is
    [string] and [==] on it is [String.eqb]. *)

From Stdlib Require Import List String ZArith Lia Bool.
From Stdlib Require Import PrimFloat.
From Stdlib Require Uint63 SpecFloat FloatOps FloatAxioms.
From Stdlib Require Import Ascii.
Import ListNotations.
Set Warnings "-inexact-float".
Local Open Scope string_scope.

(** ** The records of [BOOKS_DATABASE]

    Every dict literal of [BOOKS_DATABASE] carries the same eight keys with
    values of the same eight types, so a dict is a record and [b['genre']]
    is the projection [Book.genre b]. *)
Module Book.
Record t : Set := mk {
  id : Z;
  title : string;
  author : string;
  genre : string;
  year : Z;
  isbn : string;
  available : bool;
  rating : float
}.
End Book.

(** ** The pydantic models of [main] *)
Module BooksList.
Record t : Set := mk { books : list Book.t }.
End BooksList.

Module GenreInput.
Record t : Set := mk { genre : string }.
End GenreInput.

Module RatingInput.
Record t : Set := mk { rating : float }.
End RatingInput.

Module YearInput.
Record t : Set := mk { year : Z }.
End YearInput.

Module AverageRatingResult.
Record t : Set := mk { average_rating : float; genre : string }.
End AverageRatingResult.

(** ** The fragment of the Python runtime the tools run on

    A tool runs against the module globals, here the list object bound to
    [BOOKS_DATABASE], and either returns a value or raises; the globals are
    threaded through so that a write to them would show in the final state. *)
Module Py.
Inductive exn : Set :=
| ZeroDivisionError.

Inductive outcome (A : Type) : Type :=
| Returns (a : A)
| Raises (e : exn).
Arguments Returns {A} a.
Arguments Raises {A} e.

Definition globals : Set := list Book.t.

Definition M (A : Type) : Type := globals -> outcome A * globals.

Definition ret {A : Type} (a : A) : M A := fun s => (Returns a, s).

Definition raise {A : Type} (e : exn) : M A := fun s => (Raises e, s).

Definition bind {A B : Type} (m : M A) (k : A -> M B) : M B :=
  fun s =>
    match m s with
    | (Returns a, s') => k a s'
    | (Raises e, s') => (Raises e, s')
    end.

(** Evaluating the global name [BOOKS_DATABASE]. *)
Definition load_global : M (list Book.t) := fun s => (Returns s, s).

(** Truth value of a list: [not books] is [negb (truthy books)]. *)
Definition truthy {A : Type} (l : list A) : bool :=
  match l with
  | [] => false
  | _ :: _ => true
  end.

(** [float(n)] for the [int] that [len] returns.  A length is below
    [2^63] ([sys.maxsize]), where [of_uint63] is the correctly rounded
    conversion that Python performs. *)
Definition float_of_len (n : nat) : float :=
  of_uint63 (Uint63.of_Z (Z.of_nat n)).

(** [x / n] for a float [x] and the int [n] of a [len]: the int operand
    is converted to float, and a zero divisor raises. *)
Definition truediv (x : float) (n : nat) : M float :=
  if Nat.eqb n 0 then raise ZeroDivisionError
  else ret (x / float_of_len n)%float.

(** The builtin [sum] on floats as CPython computes it up to 3.11: start
    from the int [0] and add from left to right.  ([0 + x] converts [0]
    to [0.0].)  The tools below take the builtin as a parameter, because
    later interpreters sum floats with a compensated algorithm. *)
Definition sum_left_to_right (l : list float) : float :=
  fold_left PrimFloat.add l 0%float.
End Py.

Notation "x <- m ;; k" := (Py.bind m (fun x => k))
  (at level 61, m at next level, right associativity).

(** ** The data *)

Definition BOOKS_DATABASE : list Book.t := [
  {| Book.id := 1;
     Book.title := "The Great Gatsby";
     Book.author := "F. Scott Fitzgerald";
     Book.genre := "Classic Fiction";
     Book.year := 1925;
     Book.isbn := "978-0743273565";
     Book.available := true;
     Book.rating := 4.5 |};
  {| Book.id := 2;
     Book.title := "To Kill a Mockingbird";
     Book.author := "Harper Lee";
     Book.genre := "Classic Fiction";
     Book.year := 1960;
     Book.isbn := "978-0446310789";
     Book.available := true;
     Book.rating := 4.8 |};
  {| Book.id := 3;
     Book.title := "1984";
     Book.author := "George Orwell";
     Book.genre := "Dystopian Fiction";
     Book.year := 1949;
     Book.isbn := "978-0451524935";
     Book.available := false;
     Book.rating := 4.7 |};
  {| Book.id := 4;
     Book.title := "Pride and Prejudice";
     Book.author := "Jane Austen";
     Book.genre := "Romance";
     Book.year := 1813;
     Book.isbn := "978-0141439518";
     Book.available := true;
     Book.rating := 4.6 |};
  {| Book.id := 5;
     Book.title := "The Catcher in the Rye";
     Book.author := "J.D. Salinger";
     Book.genre := "Classic Fiction";
     Book.year := 1951;
     Book.isbn := "978-0316769488";
     Book.available := true;
     Book.rating := 4.2 |};
  {| Book.id := 6;
     Book.title := "Brave New World";
     Book.author := "Aldous Huxley";
     Book.genre := "Dystopian Fiction";
     Book.year := 1932;
     Book.isbn := "978-0060850524";
     Book.available := true;
     Book.rating := 4.4 |};
  {| Book.id := 7;
     Book.title := "The Hobbit";
     Book.author := "J.R.R. Tolkien";
     Book.genre := "Fantasy";
     Book.year := 1937;
     Book.isbn := "978-0547928227";
     Book.available := false;
     Book.rating := 4.9 |};
  {| Book.id := 8;
     Book.title := "Fahrenheit 451";
     Book.author := "Ray Bradbury";
     Book.genre := "Dystopian Fiction";
     Book.year := 1953;
     Book.isbn := "978-1451673319";
     Book.available := true;
     Book.rating := 4.3 |};
  {| Book.id := 9;
     Book.title := "Dune";
     Book.author := "Frank Herbert";
     Book.genre := "Science Fiction";
     Book.year := 1965;
     Book.isbn := "978-0441172719";
     Book.available := true;
     Book.rating := 4.7 |};
  {| Book.id := 10;
     Book.title := "The Lord of the Rings";
     Book.author := "J.R.R. Tolkien";
     Book.genre := "Fantasy";
     Book.year := 1954;
     Book.isbn := "978-0544003415";
     Book.available := true;
     Book.rating := 4.9 |}
].

(** ** Requests and responses

    A request names one of the four tools and carries its validated
    argument; the response is the model the tool returned. *)
Inductive tool_call : Set :=
| CallAverageRatingByGenre (params : GenreInput.t)
| CallBooksByGenre (params : GenreInput.t)
| CallBooksByRatingAbove (params : RatingInput.t)
| CallBooksByYear (params : YearInput.t).

Inductive tool_result : Set :=
| Average (r : AverageRatingResult.t)
| Books (r : BooksList.t).

(** ** The four tools registered in [main] *)
Section Tools.
(** The interpreter's builtin [sum] on a list of floats.  The one call
    site applies it to the ratings of a list that is not empty. *)
Variable builtin_sum : list float -> float.

Definition get_average_rating_by_genre (params : GenreInput.t)
  : Py.M AverageRatingResult.t :=
  db <- Py.load_global ;;
  let books :=
    filter (fun b => Book.genre b =? GenreInput.genre params) db in
  if negb (Py.truthy books) then
    Py.ret {| AverageRatingResult.average_rating := 0;
              AverageRatingResult.genre := GenreInput.genre params |}
  else
    avg <- Py.truediv (builtin_sum (map Book.rating books))
                       (List.length books) ;;
    Py.ret {| AverageRatingResult.average_rating := avg;
              AverageRatingResult.genre := GenreInput.genre params |}.

Definition get_books_by_genre (params : GenreInput.t) : Py.M BooksList.t :=
  db <- Py.load_global ;;
  let books :=
    filter (fun b => Book.genre b =? GenreInput.genre params) db in
  Py.ret {| BooksList.books := books |}.

Definition get_books_by_rating_above (params : RatingInput.t)
  : Py.M BooksList.t :=
  db <- Py.load_global ;;
  let books :=
    filter (fun b => (RatingInput.rating params <? Book.rating b)%float) db in
  Py.ret {| BooksList.books := books |}.

Definition get_books_by_year (params : YearInput.t) : Py.M BooksList.t :=
  db <- Py.load_global ;;
  let books :=
    filter (fun b => (Book.year b =? YearInput.year params)%Z) db in
  Py.ret {| BooksList.books := books |}.

Definition invoke (c : tool_call) : Py.M tool_result :=
  match c with
  | CallAverageRatingByGenre p =>
      r <- get_average_rating_by_genre p ;; Py.ret (Average r)
  | CallBooksByGenre p => r <- get_books_by_genre p ;; Py.ret (Books r)
  | CallBooksByRatingAbove p =>
      r <- get_books_by_rating_above p ;; Py.ret (Books r)
  | CallBooksByYear p => r <- get_books_by_year p ;; Py.ret (Books r)
  end.

(** A run of the server: the requests are served one after the other on
    the globals the previous one left. *)
Fixpoint serve (cs : list tool_call) (s : Py.globals)
  : list (Py.outcome tool_result) * Py.globals :=
  match cs with
  | [] => ([], s)
  | c :: cs' =>
      let (o, s1) := invoke c s in
      let (os, s2) := serve cs' s1 in
      (o :: os, s2)
  end.
End Tools.


(** ** Vocabulary of the specification *)

(** The outcome of a tool on the server as it starts: the globals hold the
    list literal [BOOKS_DATABASE]. *)
Definition run {A : Type} (m : Py.M A) : Py.outcome A :=
  fst (m BOOKS_DATABASE).

(** [subsequence l1 l2]: [l1] is [l2] with some elements left out, the
    others in their order. *)
Inductive subsequence {A : Type} : list A -> list A -> Prop :=
| subsequence_nil : subsequence [] []
| subsequence_skip x l1 l2 : subsequence l1 l2 -> subsequence l1 (x :: l2)
| subsequence_keep x l1 l2 :
    subsequence l1 l2 -> subsequence (x :: l1) (x :: l2).

(** The sum of a list of floats: the values are added to a running total
    in their order. *)
Fixpoint add_in_order (total : float) (l : list float) : float :=
  match l with
  | [] => total
  | x :: rest => add_in_order (total + x)%float rest
  end.

(** The number [n] as a float: the binary64 value nearest to [n]. *)
Definition float_of_count (n : nat) : float :=
  FloatOps.SF2Prim
    (SpecFloat.binary_normalize FloatOps.prec FloatOps.emax (Z.of_nat n) 0
       false).

(** The arithmetic mean in the spec's words: the sum of the values,
    starting from zero, divided by their count, by floating-point
    division. *)
Definition arithmetic_mean (l : list float) : float :=
  (add_in_order 0 l / float_of_count (List.length l))%float.

(** [matching_subsequence matches l]: [l] holds exactly the records of
    [BOOKS_DATABASE] that satisfy [matches], in the order of the
    collection and without repetition. *)
Definition matching_subsequence (matches : Book.t -> Prop)
  (l : list Book.t) : Prop :=
  subsequence l BOOKS_DATABASE /\
  NoDup l /\
  (forall b, In b l <-> In b BOOKS_DATABASE /\ matches b).

(** ** The process around the tools: what [main] prints and how it ends

    [main] configures logging, builds the server, registers the tools and
    then runs the server inside a [try] statement with two [except]
    clauses and a [finally].  Standard output is the list of the texts
    given to [print], oldest first; an exception is told apart by the
    classes the clauses test. *)
Module Proc.
Inductive exception : Set :=
| KeyboardInterrupt
| Exception (text : string)
| SystemExit (code : Z)
| BaseException (text : string).

Inductive result (A : Type) : Type :=
| Done (a : A)
| Raised (e : exception).
Arguments Done {A} a.
Arguments Raised {A} e.

Definition stdout : Set := list string.

Definition IO (A : Type) : Type := stdout -> result A * stdout.

Definition ret {A : Type} (a : A) : IO A := fun out => (Done a, out).

Definition raise {A : Type} (e : exception) : IO A :=
  fun out => (Raised e, out).

Definition bind {A B : Type} (m : IO A) (k : A -> IO B) : IO B :=
  fun out =>
    match m out with
    | (Done a, out') => k a out'
    | (Raised e, out') => (Raised e, out')
    end.

Definition print (text : string) : IO unit :=
  fun out => (Done tt, (out ++ [text])%list).

(** [sys.exit(code)] raises [SystemExit(code)]. *)
Definition sys_exit {A : Type} (code : Z) : IO A := raise (SystemExit code).

(** The [except] clauses of a [try], in order: a clause is a partial
    function that gives its body for the exceptions of its class.  The
    first clause that matches handles the exception; when none does, the
    exception goes on. *)
Fixpoint handle {A : Type} (clauses : list (exception -> option (IO A)))
  (e : exception) : IO A :=
  match clauses with
  | [] => raise e
  | clause :: rest =>
      match clause e with
      | Some body => body
      | None => handle rest e
      end
  end.

(** [try: body / except ...: clauses / finally: final].  The [finally]
    body runs whether the body returned, a clause handled its exception,
    a clause raised, or no clause matched; an exception of the [finally]
    body replaces the pending outcome. *)
Definition try_except_finally {A : Type} (body : IO A)
  (clauses : list (exception -> option (IO A))) (final : IO unit) : IO A :=
  fun out =>
    let (r, out1) := body out in
    let (r', out2) :=
      match r with
      | Done a => (Done a, out1)
      | Raised e => handle clauses e out1
      end in
    let (f, out3) := final out2 in
    match f with
    | Done _ => (r', out3)
    | Raised e' => (Raised e', out3)
    end.
End Proc.

(** The three texts [main] prints.  The first starts with a newline. *)
Definition shutdown_message : string :=
  String "010"%char "🛑 Server shutting down gracefully...".

Definition unexpected_error_message (text : string) : string :=
  "❌ Unexpected error: " ++ text.

Definition exited_message : string := "✅ Server exited.".

Section Main.
(** Everything [main] does before the [try]: [logging.basicConfig],
    [logger.info], the [FastMCP] constructor, the model classes and the
    four [@mcp.tool] registrations.  These are calls into the logging
    module and the SDK, so what they print or raise is a parameter. *)
Variable startup : Z -> string -> Proc.IO unit.

(** [mcp.run(transport="streamable-http")] on the server built for the
    port: the SDK's serving loop, a parameter as well. *)
Variable mcp_run : Z -> Proc.IO unit.

Definition main (port : Z) (log_level : string) : Proc.IO unit :=
  Proc.bind (startup port log_level) (fun _ =>
  Proc.try_except_finally (mcp_run port)
    [ (fun e =>
         match e with
         | Proc.KeyboardInterrupt => Some (Proc.print shutdown_message)
         | _ => None
         end);
      (fun e =>
         match e with
         | Proc.Exception text =>
             Some (Proc.bind (Proc.print (unexpected_error_message text))
                     (fun _ => Proc.sys_exit 1))
         | _ => None
         end) ]
    (Proc.print exited_message)).
End Main.

(** * Properties *)

(** ** Lists *)
Section ListFacts.
Context {A : Type}.

Lemma subsequence_filter (f : A -> bool) (l : list A) :
  subsequence (filter f l) l.
Proof.
  induction l as [|x l IH]; simpl.
  - constructor.
  - destruct (f x); constructor; exact IH.
Qed.

Lemma subsequence_In (l1 l2 : list A) (x : A) :
  subsequence l1 l2 -> In x l1 -> In x l2.
Proof.
  induction 1 as [|y l1 l2 _ IH|y l1 l2 _ IH]; simpl; intros Hin.
  - exact Hin.
  - right. apply IH, Hin.
  - destruct Hin as [->|Hin]; [left; reflexivity|right; apply IH, Hin].
Qed.

Lemma subsequence_NoDup (l1 l2 : list A) :
  subsequence l1 l2 -> NoDup l2 -> NoDup l1.
Proof.
  induction 1 as [|y l1 l2 Hs IH|y l1 l2 Hs IH]; intros Hnd.
  - exact Hnd.
  - inversion Hnd; subst. apply IH. assumption.
  - inversion Hnd as [|? ? Hnotin Hnd']; subst. constructor.
    + intros Hin. apply Hnotin. eapply subsequence_In; eassumption.
    + apply IH, Hnd'.
Qed.

(** In a list without repetition, a subsequence is determined by its
    elements. *)
Lemma subsequence_unique (l l1 l2 : list A) :
  NoDup l -> subsequence l1 l -> subsequence l2 l ->
  (forall x, In x l1 <-> In x l2) -> l1 = l2.
Proof.
  intros Hnd. revert l1 l2.
  induction Hnd as [|x l Hnotin Hnd IH]; intros l1 l2 H1 H2 Hsame.
  - inversion H1; inversion H2; subst. reflexivity.
  - assert (Hout : forall k, subsequence k l -> ~ In x k).
    { intros k Hk Hin. apply Hnotin. eapply subsequence_In; eassumption. }
    inversion H1 as [|? ? ? H1'|? k1 ? H1']; subst;
      inversion H2 as [|? ? ? H2'|? k2 ? H2']; subst.
    + apply IH; assumption.
    + exfalso. apply (Hout l1 H1'), Hsame. left. reflexivity.
    + exfalso. apply (Hout l2 H2'), Hsame. left. reflexivity.
    + f_equal. apply IH; [assumption..|].
      intros y. split; intros Hy.
      * destruct (proj1 (Hsame y) (or_intror Hy)) as [<-|Hy2];
          [destruct (Hout k1 H1' Hy)|exact Hy2].
      * destruct (proj2 (Hsame y) (or_intror Hy)) as [<-|Hy1];
          [destruct (Hout k2 H2' Hy)|exact Hy1].
Qed.

Lemma filter_nothing (f : A -> bool) (l : list A) :
  (forall x, In x l -> f x = false) -> filter f l = [].
Proof.
  intros Hnone. destruct (filter f l) as [|x l'] eqn:E; [reflexivity|].
  assert (Hx : In x (filter f l)) by (rewrite E; left; reflexivity).
  apply filter_In in Hx. destruct Hx as [Hin Hfx].
  rewrite (Hnone x Hin) in Hfx. discriminate.
Qed.

End ListFacts.

(** ** What each tool computes, on any globals *)

Lemma get_books_by_genre_eq (params : GenreInput.t) (s : Py.globals) :
  get_books_by_genre params s =
  (Py.Returns
     {| BooksList.books :=
          filter (fun b => Book.genre b =? GenreInput.genre params) s |}, s).
Proof. reflexivity. Qed.

Lemma get_books_by_rating_above_eq (params : RatingInput.t) (s : Py.globals) :
  get_books_by_rating_above params s =
  (Py.Returns
     {| BooksList.books :=
          filter (fun b => (RatingInput.rating params <? Book.rating b)%float)
            s |}, s).
Proof. reflexivity. Qed.

Lemma get_books_by_year_eq (params : YearInput.t) (s : Py.globals) :
  get_books_by_year params s =
  (Py.Returns
     {| BooksList.books :=
          filter (fun b => (Book.year b =? YearInput.year params)%Z) s |}, s).
Proof. reflexivity. Qed.

Lemma get_average_rating_by_genre_eq
  (builtin_sum : list float -> float) (g : string) (s : Py.globals) :
  get_average_rating_by_genre builtin_sum {| GenreInput.genre := g |} s =
  (Py.Returns
     {| AverageRatingResult.average_rating :=
          match filter (fun b => Book.genre b =? g) s with
          | [] => 0%float
          | _ :: _ =>
              PrimFloat.div
                (builtin_sum
                   (map Book.rating (filter (fun b => Book.genre b =? g) s)))
                (Py.float_of_len
                   (List.length (filter (fun b => Book.genre b =? g) s)))
          end;
        AverageRatingResult.genre := g |}, s).
Proof.
  unfold get_average_rating_by_genre, Py.bind, Py.load_global.
  cbn [GenreInput.genre].
  destruct (filter (fun b => Book.genre b =? g) s) as [|b books];
    reflexivity.
Qed.

(** ** The sum and the count of the runtime against the specification's *)

Lemma sum_left_to_right_add_in_order (l : list float) :
  Py.sum_left_to_right l = add_in_order 0 l.
Proof.
  unfold Py.sum_left_to_right. generalize 0%float.
  induction l as [|x l IH]; intros total; simpl; [reflexivity|apply IH].
Qed.

Lemma float_of_len_count (n : nat) :
  (Z.of_nat n < 2 ^ 63)%Z -> Py.float_of_len n = float_of_count n.
Proof.
  intros Hn. unfold Py.float_of_len, float_of_count.
  rewrite <- (FloatAxioms.SF2Prim_Prim2SF (of_uint63 _)).
  rewrite FloatAxioms.of_uint63_spec, Uint63.of_Z_spec.
  rewrite Z.mod_small; [reflexivity|].
  split; [lia|exact Hn].
Qed.

Lemma truediv_sum_is_mean (l : list float) :
  (Z.of_nat (List.length l) < 2 ^ 63)%Z ->
  (Py.sum_left_to_right l / Py.float_of_len (List.length l))%float =
  arithmetic_mean l.
Proof.
  intros Hlen. unfold arithmetic_mean.
  rewrite sum_left_to_right_add_in_order, (float_of_len_count _ Hlen).
  reflexivity.
Qed.

Lemma filter_length_bound {A : Type} (f : A -> bool) (l : list A) :
  (Z.of_nat (List.length l) < 2 ^ 63)%Z ->
  (Z.of_nat (List.length (filter f l)) < 2 ^ 63)%Z.
Proof.
  intros Hl. pose proof (filter_length_le f l). lia.
Qed.

(** ** The fixed collection *)

Lemma books_database_ids_NoDup : NoDup (map Book.id BOOKS_DATABASE).
Proof.
  simpl. repeat (constructor; [simpl; intuition discriminate|]).
  constructor.
Qed.

Lemma books_database_NoDup : NoDup BOOKS_DATABASE.
Proof.
  apply (NoDup_map_inv Book.id), books_database_ids_NoDup.
Qed.

(** C9: [BOOKS_DATABASE] holds exactly ten records; every id is a positive
    integer and no two records share one; every title, author, genre and
    isbn is a non-empty text. *)
Theorem books_database_invariants :
  List.length BOOKS_DATABASE = 10%nat /\
  Forall (fun b => (0 < Book.id b)%Z) BOOKS_DATABASE /\
  NoDup (map Book.id BOOKS_DATABASE) /\
  Forall (fun b => Book.title b <> "" /\ Book.author b <> "" /\
                   Book.genre b <> "" /\ Book.isbn b <> "") BOOKS_DATABASE.
Proof.
  split; [reflexivity|]. split; [|split].
  - repeat constructor.
  - exact books_database_ids_NoDup.
  - repeat (constructor; [simpl; repeat split; discriminate|]).
    constructor.
Qed.

(** Two evaluations of the average with the left-to-right sum. *)
Example average_rating_fantasy :
  run (get_average_rating_by_genre Py.sum_left_to_right
         {| GenreInput.genre := "Fantasy" |}) =
    Py.Returns
      {| AverageRatingResult.average_rating := 4.9;
         AverageRatingResult.genre := "Fantasy" |}.
Proof. reflexivity. Qed.

Example average_rating_romance :
  run (get_average_rating_by_genre Py.sum_left_to_right
         {| GenreInput.genre := "Romance" |}) =
    Py.Returns
      {| AverageRatingResult.average_rating := 4.6;
         AverageRatingResult.genre := "Romance" |}.
Proof. reflexivity. Qed.

(** ** The three filters *)

(** C4: for every genre [g], the books of [get_books_by_genre] are exactly
    the records whose genre is the string [g] (the empty list when there
    is none); for ["Fantasy"] they are the two records titled "The Hobbit"
    and "The Lord of the Rings", and the match is case-sensitive. *)
Theorem get_books_by_genre_exact :
  (forall g : string, exists l : list Book.t,
      run (get_books_by_genre {| GenreInput.genre := g |}) =
        Py.Returns {| BooksList.books := l |} /\
      (forall b, In b l <-> In b BOOKS_DATABASE /\ Book.genre b = g) /\
      ((forall b, In b BOOKS_DATABASE -> Book.genre b <> g) -> l = [])) /\
  (exists b1 b2 : Book.t,
      run (get_books_by_genre {| GenreInput.genre := "Fantasy" |}) =
        Py.Returns {| BooksList.books := [b1; b2] |} /\
      Book.title b1 = "The Hobbit" /\
      Book.title b2 = "The Lord of the Rings") /\
  run (get_books_by_genre {| GenreInput.genre := "fantasy" |}) =
    Py.Returns {| BooksList.books := [] |}.
Proof.
  split; [|split].
  - intros g.
    exists (filter (fun b => Book.genre b =? g) BOOKS_DATABASE).
    split; [reflexivity|]. split.
    + intros b. rewrite filter_In, String.eqb_eq. reflexivity.
    + intros Hnone. apply filter_nothing. intros b Hin.
      apply String.eqb_neq, Hnone, Hin.
  - do 2 eexists. split; [reflexivity|]. split; reflexivity.
  - reflexivity.
Qed.

(** C3: for every threshold [r], the books of [get_books_by_rating_above]
    are exactly the records whose rating is strictly greater than [r] (the
    empty list when there is none); above [4.8] they are the two records
    rated [4.9], "The Hobbit" and "The Lord of the Rings", and above [4.9]
    there is none. *)
Theorem get_books_by_rating_above_exact :
  (forall r : float, exists l : list Book.t,
      run (get_books_by_rating_above {| RatingInput.rating := r |}) =
        Py.Returns {| BooksList.books := l |} /\
      (forall b,
          In b l <-> In b BOOKS_DATABASE /\ (r <? Book.rating b)%float = true) /\
      ((forall b, In b BOOKS_DATABASE -> (r <? Book.rating b)%float = false) ->
       l = [])) /\
  (exists b1 b2 : Book.t,
      run (get_books_by_rating_above {| RatingInput.rating := 4.8 |}) =
        Py.Returns {| BooksList.books := [b1; b2] |} /\
      Book.title b1 = "The Hobbit" /\ Book.rating b1 = 4.9%float /\
      Book.title b2 = "The Lord of the Rings" /\ Book.rating b2 = 4.9%float) /\
  run (get_books_by_rating_above {| RatingInput.rating := 4.9 |}) =
    Py.Returns {| BooksList.books := [] |}.
Proof.
  split; [|split].
  - intros r.
    exists (filter (fun b => (r <? Book.rating b)%float) BOOKS_DATABASE).
    split; [reflexivity|]. split.
    + intros b. rewrite filter_In. reflexivity.
    + intros Hnone. apply filter_nothing. exact Hnone.
  - do 2 eexists. split; [reflexivity|]. repeat split.
  - reflexivity.
Qed.

(** C5: for every integer [y], the books of [get_books_by_year] are exactly
    the records whose year is [y] (the empty list when there is none); for
    [1949] that is the one record titled "1984", and for [2000] none. *)
Theorem get_books_by_year_exact :
  (forall y : Z, exists l : list Book.t,
      run (get_books_by_year {| YearInput.year := y |}) =
        Py.Returns {| BooksList.books := l |} /\
      (forall b, In b l <-> In b BOOKS_DATABASE /\ Book.year b = y) /\
      ((forall b, In b BOOKS_DATABASE -> Book.year b <> y) -> l = [])) /\
  (exists b1 : Book.t,
      run (get_books_by_year {| YearInput.year := 1949 |}) =
        Py.Returns {| BooksList.books := [b1] |} /\
      Book.title b1 = "1984") /\
  run (get_books_by_year {| YearInput.year := 2000 |}) =
    Py.Returns {| BooksList.books := [] |}.
Proof.
  split; [|split].
  - intros y.
    exists (filter (fun b => (Book.year b =? y)%Z) BOOKS_DATABASE).
    split; [reflexivity|]. split.
    + intros b. rewrite filter_In, Z.eqb_eq. reflexivity.
    + intros Hnone. apply filter_nothing. intros b Hin.
      apply Z.eqb_neq, Hnone, Hin.
  - eexists. split; reflexivity.
  - reflexivity.
Qed.

Lemma filter_matching_subsequence (f : Book.t -> bool)
  (matches : Book.t -> Prop) :
  (forall b, f b = true <-> matches b) ->
  matching_subsequence matches (filter f BOOKS_DATABASE) /\
  (forall l' : list Book.t,
      matching_subsequence matches l' -> l' = filter f BOOKS_DATABASE).
Proof.
  intros Hf.
  assert (Hmem : forall b, In b (filter f BOOKS_DATABASE) <->
                           In b BOOKS_DATABASE /\ matches b).
  { intros b. rewrite filter_In, Hf. reflexivity. }
  split.
  - split; [apply subsequence_filter|]. split; [|exact Hmem].
    eapply subsequence_NoDup;
      [apply subsequence_filter|apply books_database_NoDup].
  - intros l' [Hsub [_ Hmem']].
    apply (subsequence_unique BOOKS_DATABASE);
      [apply books_database_NoDup|exact Hsub|apply subsequence_filter|].
    intros b. rewrite Hmem, Hmem'. reflexivity.
Qed.

(** C10: each of the three record-returning tools returns the matching
    records as a subsequence of [BOOKS_DATABASE]: the list returned holds
    exactly the records that match, in the order they have in the
    collection, none repeated; it is the only list of that kind. *)
Theorem filters_return_subsequence :
  (forall g : string, exists l : list Book.t,
      run (get_books_by_genre {| GenreInput.genre := g |}) =
        Py.Returns {| BooksList.books := l |} /\
      matching_subsequence (fun b => Book.genre b = g) l /\
      (forall l' : list Book.t,
          matching_subsequence (fun b => Book.genre b = g) l' -> l' = l)) /\
  (forall r : float, exists l : list Book.t,
      run (get_books_by_rating_above {| RatingInput.rating := r |}) =
        Py.Returns {| BooksList.books := l |} /\
      matching_subsequence (fun b => (r <? Book.rating b)%float = true) l /\
      (forall l' : list Book.t,
          matching_subsequence (fun b => (r <? Book.rating b)%float = true) l'
          -> l' = l)) /\
  (forall y : Z, exists l : list Book.t,
      run (get_books_by_year {| YearInput.year := y |}) =
        Py.Returns {| BooksList.books := l |} /\
      matching_subsequence (fun b => Book.year b = y) l /\
      (forall l' : list Book.t,
          matching_subsequence (fun b => Book.year b = y) l' -> l' = l)).
Proof.
  split; [|split].
  - intros g.
    exists (filter (fun b => Book.genre b =? g) BOOKS_DATABASE).
    split; [reflexivity|]. apply filter_matching_subsequence.
    intros b. apply String.eqb_eq.
  - intros r.
    exists (filter (fun b => (r <? Book.rating b)%float) BOOKS_DATABASE).
    split; [reflexivity|]. apply filter_matching_subsequence.
    intros b. reflexivity.
  - intros y.
    exists (filter (fun b => (Book.year b =? y)%Z) BOOKS_DATABASE).
    split; [reflexivity|]. apply filter_matching_subsequence.
    intros b. apply Z.eqb_eq.
Qed.

(** ** The average *)



(** C2: when no record has genre [g], [get_average_rating_by_genre]
    returns the average [0.0] together with the genre [g]; it does not
    raise. *)
Theorem average_rating_of_absent_genre
  (builtin_sum : list float -> float) (g : string) :
  (forall b, In b BOOKS_DATABASE -> Book.genre b <> g) ->
  run (get_average_rating_by_genre builtin_sum {| GenreInput.genre := g |}) =
    Py.Returns
      {| AverageRatingResult.average_rating := 0;
         AverageRatingResult.genre := g |}.
Proof.
  intros Hnone. unfold run. rewrite get_average_rating_by_genre_eq.
  cbn [fst].
  rewrite (filter_nothing (fun b => Book.genre b =? g) BOOKS_DATABASE);
    [reflexivity|].
  intros b Hin. apply String.eqb_neq, Hnone, Hin.
Qed.

Lemma average_rating_of_absent_genre_witness :
  run (get_average_rating_by_genre Py.sum_left_to_right
         {| GenreInput.genre := "Poetry" |}) =
    Py.Returns
      {| AverageRatingResult.average_rating := 0;
         AverageRatingResult.genre := "Poetry" |}.
Proof.
  apply (average_rating_of_absent_genre Py.sum_left_to_right "Poetry").
  intros b Hin. simpl in Hin.
  repeat (destruct Hin as [<-|Hin]; [discriminate|]).
  destruct Hin.
Defined.

(** ** Invocations *)

Lemma invoke_returns
  (builtin_sum : list float -> float) (c : tool_call) (s : Py.globals) :
  exists v : tool_result, invoke builtin_sum c s = (Py.Returns v, s).
Proof.
  destruct c as [p|p|p|p]; unfold invoke, Py.bind.
  - destruct p as [g]. rewrite get_average_rating_by_genre_eq.
    eexists. reflexivity.
  - rewrite get_books_by_genre_eq. eexists. reflexivity.
  - rewrite get_books_by_rating_above_eq. eexists. reflexivity.
  - rewrite get_books_by_year_eq. eexists. reflexivity.
Qed.

Lemma serve_globals
  (builtin_sum : list float -> float) (cs : list tool_call) (s : Py.globals) :
  snd (serve builtin_sum cs s) = s.
Proof.
  revert s. induction cs as [|c cs IH]; intros s; simpl; [reflexivity|].
  destruct (invoke_returns builtin_sum c s) as [v ->].
  specialize (IH s). destruct (serve builtin_sum cs s) as [os s2].
  exact IH.
Qed.

Lemma serve_app
  (builtin_sum : list float -> float) (cs1 cs2 : list tool_call)
  (s : Py.globals) :
  fst (serve builtin_sum (cs1 ++ cs2) s) =
  (fst (serve builtin_sum cs1 s) ++ fst (serve builtin_sum cs2 s))%list.
Proof.
  revert s. induction cs1 as [|c cs1 IH]; intros s; simpl; [reflexivity|].
  destruct (invoke_returns builtin_sum c s) as [v ->].
  specialize (IH s).
  destruct (serve builtin_sum (cs1 ++ cs2) s) as [os s2].
  destruct (serve builtin_sum cs1 s) as [os1 s1].
  simpl in *. rewrite IH. reflexivity.
Qed.

(** C6: whatever the genre, the threshold or the year, and whatever the
    collection holds, each of the four tools returns a value: no
    invocation raises. *)
Theorem tools_never_raise
  (builtin_sum : list float -> float) (c : tool_call) (s : Py.globals) :
  (exists v : tool_result, fst (invoke builtin_sum c s) = Py.Returns v) /\
  (forall e : Py.exn, fst (invoke builtin_sum c s) <> Py.Raises e).
Proof.
  destruct (invoke_returns builtin_sum c s) as [v ->]. split.
  - exists v. reflexivity.
  - intros e. discriminate.
Qed.

(** C7: a tool invoked twice in succession on the same input gives the
    same output both times, at any point of a run of the server. *)
Theorem invoke_twice_same_output
  (builtin_sum : list float -> float) (before : list tool_call)
  (c : tool_call) :
  exists (os : list (Py.outcome tool_result)) (o : Py.outcome tool_result),
    fst (serve builtin_sum (before ++ [c; c]) BOOKS_DATABASE) =
      (os ++ [o; o])%list.
Proof.
  exists (fst (serve builtin_sum before BOOKS_DATABASE)).
  exists (fst (invoke builtin_sum c BOOKS_DATABASE)).
  rewrite serve_app. f_equal.
  destruct (invoke_returns builtin_sum c BOOKS_DATABASE) as [v Hv].
  cbn [serve]. rewrite Hv. cbn iota. rewrite Hv. reflexivity.
Qed.

(** C8: an invocation of any of the four tools leaves the collection as
    it found it, so the collection is [BOOKS_DATABASE], unchanged, after
    every run of the server. *)
Theorem tools_leave_collection_unchanged
  (builtin_sum : list float -> float) :
  (forall (c : tool_call) (s : Py.globals),
      snd (invoke builtin_sum c s) = s) /\
  (forall cs : list tool_call,
      snd (serve builtin_sum cs BOOKS_DATABASE) = BOOKS_DATABASE).
Proof.
  split.
  - intros c s. destruct (invoke_returns builtin_sum c s) as [v ->].
    reflexivity.
  - intros cs. apply serve_globals.
Qed.

(** * Further properties of the tools *)

(** ** The order of binary64 values

    The comparisons of primitive floats are specified through
    [FloatOps.Prim2SF]; the facts below are read off
    [SpecFloat.SFcompare]. *)

Lemma SFcompare_same (x : SpecFloat.spec_float) :
  SpecFloat.SFcompare x x = Some Eq \/ SpecFloat.SFcompare x x = None.
Proof.
  destruct x as [s|s| |s m e]; simpl; auto.
  - destruct s; auto.
  - left. f_equal. rewrite Z.compare_refl.
    change (Pos.compare_cont Eq m m) with (Pos.compare m m).
    rewrite Pos.compare_refl. destruct s; reflexivity.
Qed.

Lemma float_ltb_irrefl (x : float) : (x <? x)%float = false.
Proof.
  rewrite FloatAxioms.ltb_spec. unfold SpecFloat.SFltb.
  destruct (SFcompare_same (FloatOps.Prim2SF x)) as [-> | ->]; reflexivity.
Qed.

Lemma SFleb_SFltb_trans (x y z : SpecFloat.spec_float) :
  SpecFloat.SFleb x y = true -> SpecFloat.SFltb y z = true ->
  SpecFloat.SFltb x z = true.
Proof.
  unfold SpecFloat.SFleb, SpecFloat.SFltb.
  destruct x as [[]|[]| |[] mx ex], y as [[]|[]| |[] my ey],
    z as [[]|[]| |[] mz ez]; simpl;
    try discriminate; try reflexivity.
  all: change (Pos.compare_cont Eq) with Pos.compare.
  all: destruct (Z.compare_spec ex ey), (Z.compare_spec ey ez),
         (Z.compare_spec ex ez); try lia; try discriminate; try reflexivity;
       destruct (Pos.compare_spec mx my), (Pos.compare_spec my mz),
         (Pos.compare_spec mx mz); simpl; try lia; try discriminate;
       try reflexivity.
Qed.

Lemma float_leb_ltb_trans (a b c : float) :
  (a <=? b)%float = true -> (b <? c)%float = true -> (a <? c)%float = true.
Proof.
  rewrite FloatAxioms.leb_spec, !FloatAxioms.ltb_spec.
  apply SFleb_SFltb_trans.
Qed.

Lemma SFltb_not_SFeqb (x y : SpecFloat.spec_float) :
  SpecFloat.SFltb x y = true -> SpecFloat.SFeqb y x = false.
Proof.
  unfold SpecFloat.SFeqb, SpecFloat.SFltb.
  destruct x as [[]|[]| |[] mx ex], y as [[]|[]| |[] my ey]; simpl;
    try discriminate; try reflexivity.
  all: change (Pos.compare_cont Eq) with Pos.compare.
  all: rewrite (Z.compare_antisym ex ey), (Pos.compare_antisym mx my).
  all: destruct (ex ?= ey)%Z; simpl; try discriminate; try reflexivity;
       destruct (mx ?= my)%positive; simpl; try discriminate;
       try reflexivity.
Qed.

Lemma float_ltb_not_eqb (x y : float) :
  (x <? y)%float = true -> (y =? x)%float = false.
Proof.
  rewrite FloatAxioms.ltb_spec, FloatAxioms.eqb_spec.
  apply SFltb_not_SFeqb.
Qed.

Lemma float_ltb_nan_l (x : float) : (nan <? x)%float = false.
Proof. rewrite FloatAxioms.ltb_spec. reflexivity. Qed.

Lemma float_ltb_infinity_l (x : float) : (infinity <? x)%float = false.
Proof.
  rewrite FloatAxioms.ltb_spec.
  change (FloatOps.Prim2SF infinity) with (SpecFloat.S754_infinity false).
  unfold SpecFloat.SFltb.
  destruct (FloatOps.Prim2SF x) as [s|[|]| |s m e]; reflexivity.
Qed.

Lemma float_ltb_nan_r (x y : float) :
  is_nan y = true -> (x <? y)%float = false.
Proof.
  intros Hnan. rewrite FloatAxioms.ltb_spec.
  unfold FloatOps.Prim2SF at 2. rewrite Hnan.
  unfold SpecFloat.SFltb. destruct (FloatOps.Prim2SF x); reflexivity.
Qed.

Lemma subsequence_filter_weaker {A : Type} (p q : A -> bool) (l : list A) :
  (forall x, p x = true -> q x = true) ->
  subsequence (filter p l) (filter q l).
Proof.
  intros Hpq. induction l as [|x l IH]; simpl.
  - constructor.
  - destruct (p x) eqn:Hp.
    + rewrite (Hpq x Hp). apply subsequence_keep. exact IH.
    + destruct (q x); [apply subsequence_skip|]; exact IH.
Qed.

(** ** The rating threshold *)

(** X1: raising the threshold never adds a book: when [r1 <= r2], the
    books above [r2] are a subsequence of the books above [r1], on any
    collection. *)
Theorem rating_threshold_monotone (r1 r2 : float) (s : Py.globals) :
  (r1 <=? r2)%float = true ->
  exists l1 l2 : list Book.t,
    fst (get_books_by_rating_above {| RatingInput.rating := r1 |} s) =
      Py.Returns {| BooksList.books := l1 |} /\
    fst (get_books_by_rating_above {| RatingInput.rating := r2 |} s) =
      Py.Returns {| BooksList.books := l2 |} /\
    subsequence l2 l1.
Proof.
  intros Hle. do 2 eexists. rewrite !get_books_by_rating_above_eq.
  split; [reflexivity|]. split; [reflexivity|].
  apply subsequence_filter_weaker. cbn [RatingInput.rating].
  intros b Hb. eapply float_leb_ltb_trans; eassumption.
Qed.

Lemma rating_threshold_monotone_witness :
  exists l1 l2 : list Book.t,
    fst (get_books_by_rating_above {| RatingInput.rating := 4.5 |}
           BOOKS_DATABASE) = Py.Returns {| BooksList.books := l1 |} /\
    fst (get_books_by_rating_above {| RatingInput.rating := 4.8 |}
           BOOKS_DATABASE) = Py.Returns {| BooksList.books := l2 |} /\
    subsequence l2 l1.
Proof.
  apply (rating_threshold_monotone 4.5 4.8 BOOKS_DATABASE). reflexivity.
Defined.

(** X2: the boundary is strict on any collection and for any threshold:
    no returned book has a rating equal to the threshold, neither as
    floats are compared ([==], for which [-0.0] equals [0.0]) nor as the
    same value. *)
Theorem rating_above_excludes_threshold (r : float) (s : Py.globals) :
  exists l : list Book.t,
    fst (get_books_by_rating_above {| RatingInput.rating := r |} s) =
      Py.Returns {| BooksList.books := l |} /\
    Forall (fun b => (Book.rating b =? r)%float = false /\
                     Book.rating b <> r) l.
Proof.
  eexists. rewrite get_books_by_rating_above_eq. split; [reflexivity|].
  apply Forall_forall. intros b Hin. apply filter_In in Hin.
  destruct Hin as [_ Hlt]. cbn [RatingInput.rating] in Hlt. split.
  - apply float_ltb_not_eqb, Hlt.
  - intros Heq. rewrite Heq, float_ltb_irrefl in Hlt. discriminate.
Qed.

(** X3: the thresholds NaN and +infinity select no book, on any
    collection; and a book whose rating is NaN is selected by no
    threshold. *)
Theorem rating_above_nan_infinity (s : Py.globals) :
  fst (get_books_by_rating_above {| RatingInput.rating := nan |} s) =
    Py.Returns {| BooksList.books := [] |} /\
  fst (get_books_by_rating_above {| RatingInput.rating := infinity |} s) =
    Py.Returns {| BooksList.books := [] |} /\
  (forall r : float, exists l : list Book.t,
      fst (get_books_by_rating_above {| RatingInput.rating := r |} s) =
        Py.Returns {| BooksList.books := l |} /\
      Forall (fun b => is_nan (Book.rating b) = false) l).
Proof.
  rewrite !get_books_by_rating_above_eq. cbn [fst RatingInput.rating].
  split; [|split].
  - rewrite filter_nothing; [reflexivity|].
    intros b _. apply float_ltb_nan_l.
  - rewrite filter_nothing; [reflexivity|].
    intros b _. apply float_ltb_infinity_l.
  - intros r. eexists. rewrite get_books_by_rating_above_eq.
    split; [reflexivity|]. apply Forall_forall. intros b Hin.
    apply filter_In in Hin. destruct Hin as [_ Hlt].
    cbn [RatingInput.rating] in Hlt.
    destruct (is_nan (Book.rating b)) eqn:Hnan; [|reflexivity].
    rewrite (float_ltb_nan_r r _ Hnan) in Hlt. discriminate.
Qed.

(** ** The tools against each other *)

(** X4: the two genre tools agree on any collection a Python list can
    hold (fewer than [2^63] records): the average for a genre is [0.0]
    when [get_books_by_genre] returns no book for it, and otherwise the
    arithmetic mean of the ratings of the books it returns.  The builtin
    [sum] is the one that adds from left to right. *)
Theorem average_agrees_with_books_by_genre (g : string) (s : Py.globals) :
  (Z.of_nat (List.length s) < 2 ^ 63)%Z ->
  exists l : list Book.t,
    fst (get_books_by_genre {| GenreInput.genre := g |} s) =
      Py.Returns {| BooksList.books := l |} /\
    fst (get_average_rating_by_genre Py.sum_left_to_right
           {| GenreInput.genre := g |} s) =
      Py.Returns
        {| AverageRatingResult.average_rating :=
             match l with
             | [] => 0%float
             | _ :: _ => arithmetic_mean (map Book.rating l)
             end;
           AverageRatingResult.genre := g |}.
Proof.
  intros Hlen. eexists.
  rewrite get_books_by_genre_eq, get_average_rating_by_genre_eq.
  split; [reflexivity|]. cbn [fst BooksList.books GenreInput.genre].
  destruct (filter (fun b => Book.genre b =? g) s) as [|b l] eqn:E;
    [reflexivity|].
  rewrite <- E. rewrite <- truediv_sum_is_mean.
  - rewrite length_map. reflexivity.
  - rewrite length_map. apply filter_length_bound, Hlen.
Qed.

Lemma average_agrees_with_books_by_genre_witness :
  exists l : list Book.t,
    fst (get_books_by_genre {| GenreInput.genre := "Dystopian Fiction" |}
           BOOKS_DATABASE) =
      Py.Returns {| BooksList.books := l |} /\
    fst (get_average_rating_by_genre Py.sum_left_to_right
           {| GenreInput.genre := "Dystopian Fiction" |} BOOKS_DATABASE) =
      Py.Returns
        {| AverageRatingResult.average_rating :=
             match l with
             | [] => 0%float
             | _ :: _ => arithmetic_mean (map Book.rating l)
             end;
           AverageRatingResult.genre := "Dystopian Fiction" |}.
Proof.
  apply (average_agrees_with_books_by_genre "Dystopian Fiction"
           BOOKS_DATABASE).
  simpl. lia.
Defined.

(** X5: the server is stateless: in a run, on any collection, every
    request gets the outcome it would get if it were served alone,
    whatever was served before it. *)
Theorem serve_is_stateless
  (builtin_sum : list float -> float) (cs : list tool_call)
  (s : Py.globals) :
  fst (serve builtin_sum cs s) =
  map (fun c => fst (invoke builtin_sum c s)) cs.
Proof.
  induction cs as [|c cs IH]; simpl; [reflexivity|].
  destruct (invoke_returns builtin_sum c s) as [v Hv]. rewrite Hv.
  destruct (serve builtin_sum cs s) as [os s2]. simpl in *.
  rewrite IH. reflexivity.
Qed.

(** * The life of the process: [main] *)

Section MainFacts.
Variable startup : Z -> string -> Proc.IO unit.
Variable mcp_run : Z -> Proc.IO unit.
Variables (port : Z) (log_level : string).

Lemma main_after_startup (out out1 : Proc.stdout) :
  startup port log_level out = (Proc.Done tt, out1) ->
  main startup mcp_run port log_level out =
  match mcp_run port out1 with
  | (Proc.Done a, out2) => (Proc.Done a, (out2 ++ [exited_message])%list)
  | (Proc.Raised Proc.KeyboardInterrupt, out2) =>
      (Proc.Done tt, (out2 ++ [shutdown_message; exited_message])%list)
  | (Proc.Raised (Proc.Exception text), out2) =>
      (Proc.Raised (Proc.SystemExit 1),
       (out2 ++ [unexpected_error_message text; exited_message])%list)
  | (Proc.Raised e, out2) =>
      (Proc.Raised e, (out2 ++ [exited_message])%list)
  end.
Proof.
  intros Hstart. unfold main, Proc.bind at 1. rewrite Hstart.
  unfold Proc.try_except_finally.
  destruct (mcp_run port out1) as [[a|[|text|code|text]] out2];
    cbn; rewrite <- ?app_assoc; reflexivity.
Qed.
End MainFacts.

(** X6: once the startup has succeeded, whatever the serving loop does
    (return, interrupt, error, any other exception), [main] keeps what
    was printed so far, adds at most one line of its own, and prints
    "Server exited." last. *)
Theorem main_prints_exit_message_last
  (startup : Z -> string -> Proc.IO unit) (mcp_run : Z -> Proc.IO unit)
  (port : Z) (log_level : string) (out out1 : Proc.stdout) :
  startup port log_level out = (Proc.Done tt, out1) ->
  exists handler_lines : list string,
    snd (main startup mcp_run port log_level out) =
      (snd (mcp_run port out1) ++ handler_lines ++ [exited_message])%list /\
    (List.length handler_lines <= 1)%nat.
Proof.
  intros Hstart. rewrite (main_after_startup _ _ _ _ _ _ Hstart).
  destruct (mcp_run port out1) as [[a|[|text|code|text]] out2]; cbn [snd].
  - exists []. split; [reflexivity|simpl; lia].
  - exists [shutdown_message]. split; [reflexivity|simpl; lia].
  - exists [unexpected_error_message text].
    split; [reflexivity|simpl; lia].
  - exists []. split; [reflexivity|simpl; lia].
  - exists []. split; [reflexivity|simpl; lia].
Qed.

Lemma main_prints_exit_message_last_witness :
  exists handler_lines : list string,
    snd (main (fun _ _ => Proc.ret tt)
           (fun _ => Proc.raise (Proc.Exception "address already in use"))
           3002 "DEBUG" []) =
      (snd (Proc.raise (A := unit)
              (Proc.Exception "address already in use") []) ++
       handler_lines ++ [exited_message])%list /\
    (List.length handler_lines <= 1)%nat.
Proof.
  apply (main_prints_exit_message_last (fun _ _ => Proc.ret tt)
           (fun _ => Proc.raise (Proc.Exception "address already in use"))
           3002 "DEBUG" [] []).
  reflexivity.
Defined.

(** X7: once the startup has succeeded, [main] returns normally exactly
    when the serving loop returned or was interrupted from the keyboard,
    and it never lets an [Exception] or a [KeyboardInterrupt] out. *)
Theorem main_outcome
  (startup : Z -> string -> Proc.IO unit) (mcp_run : Z -> Proc.IO unit)
  (port : Z) (log_level : string) (out out1 : Proc.stdout) :
  startup port log_level out = (Proc.Done tt, out1) ->
  (fst (main startup mcp_run port log_level out) = Proc.Done tt <->
   fst (mcp_run port out1) = Proc.Done tt \/
   fst (mcp_run port out1) = Proc.Raised Proc.KeyboardInterrupt) /\
  (forall text : string,
      fst (main startup mcp_run port log_level out) <>
      Proc.Raised (Proc.Exception text)) /\
  fst (main startup mcp_run port log_level out) <>
    Proc.Raised Proc.KeyboardInterrupt.
Proof.
  intros Hstart. rewrite (main_after_startup _ _ _ _ _ _ Hstart).
  destruct (mcp_run port out1) as [[[]|[|text|code|text]] out2]; cbn [fst];
    (split; [split; [intros H; try discriminate H; auto
                    |intros [H|H]; try discriminate H; reflexivity]
            |split; [intros t|]; discriminate]).
Qed.

Lemma main_outcome_witness :
  (fst (main (fun _ _ => Proc.ret tt)
          (fun _ => Proc.raise Proc.KeyboardInterrupt) 3002 "DEBUG" []) =
     Proc.Done tt <->
   fst (Proc.raise (A := unit) Proc.KeyboardInterrupt []) = Proc.Done tt \/
   fst (Proc.raise (A := unit) Proc.KeyboardInterrupt []) =
     Proc.Raised Proc.KeyboardInterrupt) /\
  (forall text : string,
      fst (main (fun _ _ => Proc.ret tt)
             (fun _ => Proc.raise Proc.KeyboardInterrupt) 3002 "DEBUG" []) <>
      Proc.Raised (Proc.Exception text)) /\
  fst (main (fun _ _ => Proc.ret tt)
         (fun _ => Proc.raise Proc.KeyboardInterrupt) 3002 "DEBUG" []) <>
    Proc.Raised Proc.KeyboardInterrupt.
Proof.
  apply (main_outcome (fun _ _ => Proc.ret tt)
           (fun _ => Proc.raise Proc.KeyboardInterrupt) 3002 "DEBUG" [] []).
  reflexivity.
Defined.

(** X8: when the serving loop raises an [Exception], [main] prints
    "Unexpected error: " followed by the text of the exception, then
    "Server exited.", and leaves through [sys.exit(1)]. *)
Theorem main_exception_exits_with_status_1
  (startup : Z -> string -> Proc.IO unit) (mcp_run : Z -> Proc.IO unit)
  (port : Z) (log_level : string) (out out1 out2 : Proc.stdout)
  (text : string) :
  startup port log_level out = (Proc.Done tt, out1) ->
  mcp_run port out1 = (Proc.Raised (Proc.Exception text), out2) ->
  main startup mcp_run port log_level out =
  (Proc.Raised (Proc.SystemExit 1),
   (out2 ++ [unexpected_error_message text; exited_message])%list).
Proof.
  intros Hstart Hrun. rewrite (main_after_startup _ _ _ _ _ _ Hstart), Hrun.
  reflexivity.
Qed.

Lemma main_exception_exits_with_status_1_witness :
  main (fun _ _ => Proc.ret tt)
    (fun _ => Proc.raise (Proc.Exception "address already in use"))
    3002 "DEBUG" [] =
  (Proc.Raised (Proc.SystemExit 1),
   [unexpected_error_message "address already in use"; exited_message]).
Proof.
  apply (main_exception_exits_with_status_1 (fun _ _ => Proc.ret tt)
           (fun _ => Proc.raise (Proc.Exception "address already in use"))
           3002 "DEBUG" [] [] [] "address already in use");
    reflexivity.
Defined.

(** X9: a keyboard interrupt of the serving loop is a graceful end:
    [main] prints the shutdown line, then "Server exited.", and returns
    without an exception. *)
Theorem main_keyboard_interrupt_is_graceful
  (startup : Z -> string -> Proc.IO unit) (mcp_run : Z -> Proc.IO unit)
  (port : Z) (log_level : string) (out out1 out2 : Proc.stdout) :
  startup port log_level out = (Proc.Done tt, out1) ->
  mcp_run port out1 = (Proc.Raised Proc.KeyboardInterrupt, out2) ->
  main startup mcp_run port log_level out =
  (Proc.Done tt, (out2 ++ [shutdown_message; exited_message])%list).
Proof.
  intros Hstart Hrun. rewrite (main_after_startup _ _ _ _ _ _ Hstart), Hrun.
  reflexivity.
Qed.

Lemma main_keyboard_interrupt_is_graceful_witness :
  main (fun _ _ => Proc.ret tt) (fun _ => Proc.raise Proc.KeyboardInterrupt)
    3002 "DEBUG" [] =
  (Proc.Done tt, [shutdown_message; exited_message]).
Proof.
  apply (main_keyboard_interrupt_is_graceful (fun _ _ => Proc.ret tt)
           (fun _ => Proc.raise Proc.KeyboardInterrupt)
           3002 "DEBUG" [] [] []);
    reflexivity.
Defined.

(** X10: the [try] does not cover the startup: an exception raised while
    logging is configured or the server is built leaves [main] as it is,
    whatever its class, and [main] prints nothing, not even
    "Server exited.". *)
Theorem main_startup_failure_is_not_caught
  (startup : Z -> string -> Proc.IO unit) (mcp_run : Z -> Proc.IO unit)
  (port : Z) (log_level : string) (out out1 : Proc.stdout)
  (e : Proc.exception) :
  startup port log_level out = (Proc.Raised e, out1) ->
  main startup mcp_run port log_level out = (Proc.Raised e, out1).
Proof.
  intros Hstart. unfold main, Proc.bind. rewrite Hstart. reflexivity.
Qed.

Lemma main_startup_failure_is_not_caught_witness :
  main (fun _ _ => Proc.raise (Proc.Exception "Unknown level"))
    (fun _ => Proc.ret tt) 3002 "BASIC_FORMAT" [] =
  (Proc.Raised (Proc.Exception "Unknown level"), []).
Proof.
  apply (main_startup_failure_is_not_caught
           (fun _ _ => Proc.raise (Proc.Exception "Unknown level"))
           (fun _ => Proc.ret tt) 3002 "BASIC_FORMAT" [] []
           (Proc.Exception "Unknown level")).
  reflexivity.
Defined.

(** X11: an exception of the serving loop that is neither a
    [KeyboardInterrupt] nor an [Exception] (a [SystemExit], any other
    [BaseException]) is not handled: [main] prints "Server exited." and
    the exception goes on unchanged. *)
Theorem main_other_exception_goes_on
  (startup : Z -> string -> Proc.IO unit) (mcp_run : Z -> Proc.IO unit)
  (port : Z) (log_level : string) (out out1 out2 : Proc.stdout)
  (e : Proc.exception) :
  startup port log_level out = (Proc.Done tt, out1) ->
  mcp_run port out1 = (Proc.Raised e, out2) ->
  e <> Proc.KeyboardInterrupt ->
  (forall text : string, e <> Proc.Exception text) ->
  main startup mcp_run port log_level out =
  (Proc.Raised e, (out2 ++ [exited_message])%list).
Proof.
  intros Hstart Hrun Hki Hex.
  rewrite (main_after_startup _ _ _ _ _ _ Hstart), Hrun.
  destruct e as [|text|code|text]; try reflexivity.
  - destruct Hki. reflexivity.
  - destruct (Hex text). reflexivity.
Qed.

Lemma main_other_exception_goes_on_witness :
  main (fun _ _ => Proc.ret tt) (fun _ => Proc.sys_exit 3) 3002 "DEBUG" [] =
  (Proc.Raised (Proc.SystemExit 3), [exited_message]).
Proof.
  apply (main_other_exception_goes_on (fun _ _ => Proc.ret tt)
           (fun _ => Proc.sys_exit 3) 3002 "DEBUG" [] [] []
           (Proc.SystemExit 3));
    try reflexivity; try discriminate.
Defined.
